(* Shallow embedding of pytube/contrib/channel.py (class Channel):
   the continuation request builder and the JSON shape classifier
   _extract_videos, with the Channel object as explicit state. *)

From Stdlib Require Import String Ascii List ZArith Bool Lia.
Import ListNotations.
Open Scope string_scope.
Set Warnings "-register-all".

(* ------------------------------------------------------------------ *)
(** * Python values produced by json.loads *)

(** A JSON document as json.loads returns it: None, bool, a number
    (carried as its Python str() rendering; no claim needs its value),
    str, list, dict (the key/value pairs of the dict, keys distinct).
    A character of a Python str is one Ascii character here. *)
Inductive json : Type :=
| JNull
| JBool (b : bool)
| JNum (repr : string)
| JStr (s : string)
| JArr (items : list json)
| JObj (fields : list (string * json)).

(** The exceptions a subscript, slice or for-loop on such values raises. *)
Inductive exc : Type := KeyError | IndexError | TypeError.

(** A computation that returns a value or raises. *)
Inductive res (A : Type) : Type :=
| Ok (a : A)
| Err (e : exc).
Arguments Ok {A} a.
Arguments Err {A} e.

Definition bind {A B : Type} (r : res A) (f : A -> res B) : res B :=
  match r with
  | Ok a => f a
  | Err e => Err e
  end.

(** A subscript: a str key or an int index. *)
Inductive key : Type := KStr (k : string) | KInt (i : Z).

Fixpoint assoc (k : string) (fs : list (string * json)) : option json :=
  match fs with
  | [] => None
  | (k', v) :: fs' => if String.eqb k k' then Some v else assoc k fs'
  end.

(** Python's normalisation of an int index into a sequence of length [n]:
    negative indices count from the end; out of range is None. *)
Definition py_index (n : nat) (i : Z) : option nat :=
  let i' := if (i <? 0)%Z then (i + Z.of_nat n)%Z else i in
  if ((0 <=? i')%Z && (i' <? Z.of_nat n)%Z)%bool then Some (Z.to_nat i') else None.

(** [v[k]] *)
Definition getitem (v : json) (k : key) : res json :=
  match v, k with
  | JObj fs, KStr s =>
      match assoc s fs with Some w => Ok w | None => Err KeyError end
  | JObj _, KInt _ => Err KeyError          (* the keys of a JSON dict are str *)
  | JArr l, KInt i =>
      match py_index (length l) i with
      | Some n => match nth_error l n with Some w => Ok w | None => Err IndexError end
      | None => Err IndexError
      end
  | JStr s, KInt i =>
      match py_index (String.length s) i with
      | Some n => match String.get n s with
                  | Some c => Ok (JStr (String c EmptyString))
                  | None => Err IndexError
                  end
      | None => Err IndexError
      end
  | JArr _, KStr _ => Err TypeError         (* list indices must be integers *)
  | JStr _, KStr _ => Err TypeError         (* string indices must be integers *)
  | JNull, _ | JBool _, _ | JNum _, _ => Err TypeError   (* not subscriptable *)
  end.

(** [v[k1][k2]...[kn]] *)
Fixpoint get_path (v : json) (ks : list key) : res json :=
  match ks with
  | [] => Ok v
  | k :: ks' => bind (getitem v k) (fun w => get_path w ks')
  end.

(** [s[-n:]] on a str *)
Definition last_chars (n : nat) (s : string) : string :=
  substring (String.length s - n) n s.

(** [v[-n:]]; a dict cannot be sliced (unhashable slice). *)
Definition slice_last (n : nat) (v : json) : res json :=
  match v with
  | JArr l => Ok (JArr (skipn (length l - n) l))
  | JStr s => Ok (JStr (last_chars n s))
  | _ => Err TypeError
  end.

(** [v[:-1]] *)
Definition slice_drop_last (v : json) : res json :=
  match v with
  | JArr l => Ok (JArr (removelast l))
  | JStr s => Ok (JStr (substring 0 (String.length s - 1) s))
  | _ => Err TypeError
  end.

(** [for x in v]: a list yields its items, a dict its keys, a str its
    characters; anything else is not iterable. *)
Definition py_iter (v : json) : res (list json) :=
  match v with
  | JArr l => Ok l
  | JObj fs => Ok (map (fun kv => JStr (fst kv)) fs)
  | JStr s => Ok (map (fun c => JStr (String c EmptyString)) (list_ascii_of_string s))
  | _ => Err TypeError
  end.

(* ------------------------------------------------------------------ *)
(** * str() and repr(), as used by the f-strings *)

Definition chr (n : nat) : string := String (ascii_of_nat n) EmptyString.

Definition hex_digit (n : nat) : string :=
  chr (if Nat.ltb n 10 then 48 + n else 87 + n).

(** One character inside a repr'd str delimited by quote [q]; characters
    of code 128 and above are taken as printable. *)
Definition repr_char (q : ascii) (c : ascii) : string :=
  let n := nat_of_ascii c in
  if Nat.eqb n 92 then "\\"
  else if Ascii.eqb c q then "\" ++ String q EmptyString
  else if Nat.eqb n 9 then "\t"
  else if Nat.eqb n 10 then "\n"
  else if Nat.eqb n 13 then "\r"
  else if Nat.ltb n 32 || Nat.eqb n 127 then "\x" ++ hex_digit (n / 16) ++ hex_digit (n mod 16)
  else String c EmptyString.

(** repr(s): single quotes, unless s holds a single quote and no double one. *)
Definition repr_str (s : string) : string :=
  let cs := list_ascii_of_string s in
  let sq := ascii_of_nat 39 in
  let dq := ascii_of_nat 34 in
  let q := if existsb (Ascii.eqb sq) cs && negb (existsb (Ascii.eqb dq) cs)
           then dq else sq in
  String q (String.concat "" (map (repr_char q) cs) ++ String q EmptyString).

Fixpoint py_repr (v : json) : string :=
  match v with
  | JNull => "None"
  | JBool true => "True"
  | JBool false => "False"
  | JNum r => r
  | JStr s => repr_str s
  | JArr l => "[" ++ String.concat ", " (map py_repr l) ++ "]"
  | JObj fs =>
      "{" ++ String.concat ", "
               (map (fun '(k, w) => repr_str k ++ ": " ++ py_repr w) fs) ++ "}"
  end.

(** str(v), the conversion an f-string placeholder applies. *)
Definition py_str (v : json) : string :=
  match v with
  | JStr s => s
  | _ => py_repr v
  end.

(* ------------------------------------------------------------------ *)
(** * The Channel object *)

(** The fields of a Channel the two methods read or write.  [yt_api_key]
    is the value of the inherited Playlist property at the time of the
    call. *)
Record Channel : Type := mkChannel {
  channel_uri : string;
  channel_url : string;
  videos_url : string;
  shorts_url : string;
  _html_page : string;
  _visitor_data : json;          (* None is JNull *)
  yt_api_key : string
}.

(** [self._visitor_data = d] *)
Definition set_visitor_data (self : Channel) (d : json) : Channel :=
  {| channel_uri := channel_uri self; channel_url := channel_url self;
     videos_url := videos_url self; shorts_url := shorts_url self;
     _html_page := _html_page self; _visitor_data := d;
     yt_api_key := yt_api_key self |}.

(** [Channel.__init__], given the channel path extract.channel_name returns. *)
Definition channel_init (channel_uri yt_api_key : string) : Channel :=
  let channel_url := "https://www.youtube.com" ++ channel_uri in
  {| channel_uri := channel_uri; channel_url := channel_url;
     videos_url := channel_url ++ "/videos"; shorts_url := channel_url ++ "/shorts";
     _html_page := channel_url ++ "/videos"; _visitor_data := JNull;
     yt_api_key := yt_api_key |}.

(* ------------------------------------------------------------------ *)
(** * _build_continuation_url (lines 140-171) *)

Definition _build_continuation_url (self : Channel) (continuation : json)
  : string * list (string * string) * json :=
  ("https://www.youtube.com/youtubei/v1/browse?key=" ++ yt_api_key self,
   [("X-YouTube-Client-Name", "1");
    ("X-YouTube-Client-Version", "2.20200720.00.02")],
   JObj [("continuation", continuation);
         ("context",
          JObj [("client",
                 JObj [("clientName", JStr "WEB");
                       ("visitorData", _visitor_data self);
                       ("clientVersion", JStr "2.20200720.00.02")])])]).

(* ------------------------------------------------------------------ *)
(** * _extract_videos (lines 175-253) *)

(** [["contents"]["twoColumnBrowseResultsRenderer"]["tabs"][tab]
     ["tabRenderer"]["content"]["richGridRenderer"]["contents"]] *)
Definition tab_contents_keys (tab : Z) : list key :=
  [KStr "contents"; KStr "twoColumnBrowseResultsRenderer"; KStr "tabs"; KInt tab;
   KStr "tabRenderer"; KStr "content"; KStr "richGridRenderer"; KStr "contents"].

Definition visitor_data_keys : list key :=
  [KStr "responseContext"; KStr "webResponseContextExtensionData";
   KStr "ytConfigData"; KStr "visitorData"].

Definition legacy_continuation_keys : list key :=
  [KInt 1; KStr "response"; KStr "onResponseReceivedActions"; KInt 0;
   KStr "appendContinuationItemsAction"; KStr "continuationItems"].

Definition current_continuation_keys : list key :=
  [KStr "onResponseReceivedActions"; KInt 0;
   KStr "appendContinuationItemsAction"; KStr "continuationItems"].

Definition token_keys : list key :=
  [KStr "continuationItemRenderer"; KStr "continuationEndpoint";
   KStr "continuationCommand"; KStr "token"].

Definition video_id_keys : list key :=
  [KStr "richItemRenderer"; KStr "content"; KStr "videoRenderer"; KStr "videoId"].

Definition entity_id_keys : list key :=
  [KStr "richItemRenderer"; KStr "content"; KStr "shortsLockupViewModel"; KStr "entityId"].

(** Lines 187-224: the cascade that locates the video list.  None is the
    early [return [], None]; the Channel carries the visitor_data write. *)
Definition locate_videos (self : Channel) (initial_data : json) : option json * Channel :=
  let tab :=
    match get_path initial_data (tab_contents_keys 1) with
    | Ok videos => Ok videos
    | Err (KeyError | IndexError | TypeError) => get_path initial_data (tab_contents_keys 2)
    end in
  match bind tab (fun videos =>
          bind (get_path initial_data visitor_data_keys) (fun d => Ok (videos, d))) with
  | Ok (videos, d) => (Some videos, set_visitor_data self d)
  | Err (KeyError | IndexError | TypeError) =>
      match get_path initial_data legacy_continuation_keys with
      | Ok videos => (Some videos, self)
      | Err (KeyError | IndexError | TypeError) =>
          match get_path initial_data current_continuation_keys with
          | Ok videos => (Some videos, self)
          | Err (KeyError | IndexError | TypeError) => (None, self)
          end
      end
  end.

(** Lines 226-233: the continuation marker; only KeyError and IndexError
    are caught there. *)
Definition split_continuation (videos : json) : res (json * option json) :=
  match bind (get_path videos (KInt (-1) :: token_keys)) (fun continuation =>
          bind (slice_drop_last videos) (fun rest => Ok (rest, Some continuation))) with
  | Ok r => Ok r
  | Err (KeyError | IndexError) => Ok (videos, None)
  | Err TypeError => Err TypeError
  end.

Definition watch_prefix : string := "/watch?v=".

(** The body of the first loop: [f"/watch?v={x[...]['videoRenderer']['videoId']}"] *)
Definition video_watch_path (x : json) : res string :=
  bind (get_path x video_id_keys) (fun v => Ok (watch_prefix ++ py_str v)).

(** The body of the second loop:
    [f"/watch?v={x[...]['shortsLockupViewModel']['entityId'][-11:]}"] *)
Definition short_watch_path (x : json) : res string :=
  bind (get_path x entity_id_keys) (fun v =>
  bind (slice_last 11 v) (fun w => Ok (watch_prefix ++ py_str w))).

(** [for x in xs: acc.append(f x)]: the list built so far, and the
    exception that stopped the loop, if any. *)
Fixpoint append_each (f : json -> res string) (xs : list json) (acc : list string)
  : list string * option exc :=
  match xs with
  | [] => (acc, None)
  | x :: xs' =>
      match f x with
      | Ok p => append_each f xs' (acc ++ [p])
      | Err e => (acc, Some e)
      end
  end.

Definition for_append (f : json -> res string) (videos : json) (acc : list string)
  : list string * option exc :=
  match py_iter videos with
  | Ok xs => append_each f xs acc
  | Err e => (acc, Some e)
  end.

(** Lines 236-252: both loops append to the same list [videos_url]. *)
Definition collect_watch_paths (videos : json) : res (list string) :=
  let '(videos_url, e1) := for_append video_watch_path videos [] in
  match e1 with
  | None => Ok videos_url
  | Some (KeyError | IndexError | TypeError) =>
      let '(videos_url', e2) := for_append short_watch_path videos videos_url in
      match e2 with
      | None => Ok videos_url'
      | Some e => Err e
      end
  end.

(** Modelled from the spec: pytube.helpers.uniqueify, which is not under
    src/; the spec describes it as order-preserving deduplication where the
    first occurrence wins.  [seen] holds the items already kept. *)
Fixpoint uniqueify_seen (seen : list string) (xs : list string) : list string :=
  match xs with
  | [] => []
  | x :: xs' =>
      if existsb (String.eqb x) seen then uniqueify_seen seen xs'
      else x :: uniqueify_seen (x :: seen) xs'
  end.

Definition uniqueify (duped_list : list string) : list string :=
  uniqueify_seen [] duped_list.

(** Where an exception leaves _extract_videos: the continuation-marker
    block (lines 227-230) or the short-video loop (lines 246-251). *)
Inductive raise_site : Type := AtContinuationMarker | AtShortsLoop.

Inductive outcome : Type :=
| Returned (watch_paths : list string) (continuation : option json)
| Raised (site : raise_site) (e : exc).

(** Lines 226-253, on the located video list. *)
Definition process_videos (videos : json) : outcome :=
  match split_continuation videos with
  | Err e => Raised AtContinuationMarker e
  | Ok (videos', continuation) =>
      match collect_watch_paths videos' with
      | Ok videos_url => Returned (uniqueify videos_url) continuation
      | Err e => Raised AtShortsLoop e
      end
  end.

(** [self._extract_videos(raw_json)], on [initial_data = json.loads(raw_json)]. *)
Definition _extract_videos (self : Channel) (initial_data : json) : outcome * Channel :=
  match locate_videos self initial_data with
  | (None, self') => (Returned [] None, self')
  | (Some videos, self') => (process_videos videos, self')
  end.

(* ------------------------------------------------------------------ *)
(** * Specification-side definitions *)

(** Whether a lookup succeeded. *)
Definition succeeds {A : Type} (r : res A) : bool :=
  match r with Ok _ => true | Err _ => false end.

(** [map f xs] when every [f x] returns, else the first exception. *)
Fixpoint traverse (f : json -> res string) (xs : list json) : res (list string) :=
  match xs with
  | [] => Ok []
  | x :: xs' => bind (f x) (fun p => bind (traverse f xs') (fun ps => Ok (p :: ps)))
  end.

(** Order-preserving deduplication, stated by position: the occurrence of
    [x] is kept iff [x] does not occur in the part of the list before it
    ([before]). *)
Fixpoint keep_first_from (before : list string) (l : list string) : list string :=
  match l with
  | [] => []
  | x :: l' =>
      if existsb (String.eqb x) before then keep_first_from (before ++ [x]) l'
      else x :: keep_first_from (before ++ [x]) l'
  end.

Definition first_occurrences (l : list string) : list string := keep_first_from [] l.

(** The continuation request as the spec describes it: the browse endpoint
    keyed by the API key, client name/version headers, and the POST body. *)
Definition spec_client_version : string := "2.20200720.00.02".

Definition continuation_request (api_key : string) (visitor_data token : json)
  : string * list (string * string) * json :=
  ("https://www.youtube.com/youtubei/v1/browse?key=" ++ api_key,
   [("X-YouTube-Client-Name", "1"); ("X-YouTube-Client-Version", spec_client_version)],
   JObj [("continuation", token);
         ("context", JObj [("client", JObj [("clientName", JStr "WEB");
                                             ("visitorData", visitor_data);
                                             ("clientVersion", JStr spec_client_version)])])]).

(* ------------------------------------------------------------------ *)
(** * Sample payloads *)

Definition obj1 (k : string) (v : json) : json := JObj [(k, v)].

(** A standard video-renderer item. *)
Definition video_item (video_id : string) : json :=
  obj1 "richItemRenderer" (obj1 "content" (obj1 "videoRenderer" (obj1 "videoId" (JStr video_id)))).

(** A short-video item. *)
Definition short_item (entity_id : string) : json :=
  obj1 "richItemRenderer" (obj1 "content"
    (obj1 "shortsLockupViewModel" (obj1 "entityId" (JStr entity_id)))).

(** An item carrying both renderer shapes. *)
Definition dual_item (video_id entity_id : string) : json :=
  obj1 "richItemRenderer" (obj1 "content"
    (JObj [("videoRenderer", obj1 "videoId" (JStr video_id));
           ("shortsLockupViewModel", obj1 "entityId" (JStr entity_id))])).

(** The trailing continuation marker. *)
Definition marker_item (token : string) : json :=
  obj1 "continuationItemRenderer" (obj1 "continuationEndpoint"
    (obj1 "continuationCommand" (obj1 "token" (JStr token)))).

(** A standard video item that also has a [continuationItemRenderer]
    key holding None, so it is not a continuation marker. *)
Definition null_marker_video_item (video_id : string) : json :=
  JObj [("continuationItemRenderer", JNull);
        ("richItemRenderer", obj1 "content" (obj1 "videoRenderer" (obj1 "videoId" (JStr video_id))))].

(** A continuation response in the current (flat object) shape. *)
Definition continuation_page (items : list json) : json :=
  obj1 "onResponseReceivedActions"
    (JArr [obj1 "appendContinuationItemsAction" (obj1 "continuationItems" (JArr items))]).

(** An initial page whose videos tab (tab 1) holds [items], without the
    visitor data entry. *)
Definition videos_tab_page_no_visitor (items : list json) : json :=
  obj1 "contents" (obj1 "twoColumnBrowseResultsRenderer" (obj1 "tabs"
    (JArr [JObj []; obj1 "tabRenderer" (obj1 "content"
                      (obj1 "richGridRenderer" (obj1 "contents" (JArr items))))]))).

Definition sample_channel : Channel := channel_init "/@sample" "KEY".

(* ------------------------------------------------------------------ *)
(** * The rest of the Channel object: sub-page URLs and page caches *)

(** [self._html_page = url] *)
Definition set_html_page (self : Channel) (url : string) : Channel :=
  {| channel_uri := channel_uri self; channel_url := channel_url self;
     videos_url := videos_url self; shorts_url := shorts_url self;
     _html_page := url; _visitor_data := _visitor_data self;
     yt_api_key := yt_api_key self |}.

(** The whole object: the fields above, the other four sub-page URLs of
    [__init__], the cached page bodies (None is Python None), and the URLs
    request.get has been called with, in order. *)
Record ChannelPages : Type := mkChannelPages {
  core : Channel;
  playlists_url : string;
  community_url : string;
  featured_channels_url : string;
  about_url : string;
  _html : option string;
  _playlists_html : option string;
  _community_html : option string;
  _featured_channels_html : option string;
  _about_html : option string;
  requests : list string
}.

(** Modelled from the spec: Playlist.__init__ (not under src/) sets the
    cache slot [_html] of the channel page; the spec has every page body
    fetched lazily, so it starts uncached. *)
Definition playlist_initial_html : option string := None.

(** [Channel.__init__] (lines 14-41), given the path extract.channel_name
    returns. *)
Definition channel_pages_init (channel_uri yt_api_key : string) : ChannelPages :=
  let c := channel_init channel_uri yt_api_key in
  {| core := c;
     playlists_url := channel_url c ++ "/playlists";
     community_url := channel_url c ++ "/community";
     featured_channels_url := channel_url c ++ "/channels";
     about_url := channel_url c ++ "/about";
     _html := playlist_initial_html;
     _playlists_html := None; _community_html := None;
     _featured_channels_html := None; _about_html := None;
     requests := [] |}.

(** The cached pages and the slot each property uses. *)
Inductive page : Type := PChannel | PPlaylists | PCommunity | PFeaturedChannels | PAbout.

Definition page_slot (self : ChannelPages) (p : page) : option string :=
  match p with
  | PChannel => _html self
  | PPlaylists => _playlists_html self
  | PCommunity => _community_html self
  | PFeaturedChannels => _featured_channels_html self
  | PAbout => _about_html self
  end.

(** The URL each property requests: [html] the page selected by
    [_html_page], the others their fixed sub-page URL. *)
Definition page_url (self : ChannelPages) (p : page) : string :=
  match p with
  | PChannel => _html_page (core self)
  | PPlaylists => playlists_url self
  | PCommunity => community_url self
  | PFeaturedChannels => featured_channels_url self
  | PAbout => about_url self
  end.

(** [self._<p>_html = body] after a call [request.get(url)]. *)
Definition store_page (self : ChannelPages) (p : page) (url body : string) : ChannelPages :=
  let s := Some body in
  {| core := core self;
     playlists_url := playlists_url self; community_url := community_url self;
     featured_channels_url := featured_channels_url self; about_url := about_url self;
     _html := match p with PChannel => s | _ => _html self end;
     _playlists_html := match p with PPlaylists => s | _ => _playlists_html self end;
     _community_html := match p with PCommunity => s | _ => _community_html self end;
     _featured_channels_html :=
       match p with PFeaturedChannels => s | _ => _featured_channels_html self end;
     _about_html := match p with PAbout => s | _ => _about_html self end;
     requests := requests self ++ [url] |}.

(** Python truthiness of a cached body: None and "" are false. *)
Definition py_truthy (slot : option string) : bool :=
  match slot with
  | Some body => negb (String.eqb body "")
  | None => false
  end.

(** The properties [html], [playlists_html], [community_html],
    [featured_channels_html] and [about_html] (lines 73-138):
    [if self._x: return self._x], else [self._x = request.get(url)] and
    return it.  [response] is the body request.get would return. *)
Definition get_page (self : ChannelPages) (p : page) (response : string)
  : string * ChannelPages :=
  match page_slot self p with
  | Some body =>
      if py_truthy (Some body) then (body, self)
      else (response, store_page self p (page_url self p) response)
  | None => (response, store_page self p (page_url self p) response)
  end.

(** [self._html_page = ...] on the whole object. *)
Definition select_page (self : ChannelPages) (url : string) : ChannelPages :=
  {| core := set_html_page (core self) url;
     playlists_url := playlists_url self; community_url := community_url self;
     featured_channels_url := featured_channels_url self; about_url := about_url self;
     _html := _html self; _playlists_html := _playlists_html self;
     _community_html := _community_html self;
     _featured_channels_html := _featured_channels_html self;
     _about_html := _about_html self; requests := requests self |}.

(** The effect of the [videos] and [shorts] properties (lines 255-271) on
    the object; the DeferredGeneratorList they return wraps the inherited
    videos_generator, which is not under src/. *)
Definition videos (self : ChannelPages) : ChannelPages :=
  select_page self (videos_url (core self)).

Definition shorts (self : ChannelPages) : ChannelPages :=
  select_page self (shorts_url (core self)).

(* ------------------------------------------------------------------ *)
(** * channel_name, channel_id, vanity_url (lines 43-71) *)

(** These read [self.initial_data], the parsed page (a Playlist property
    not under src/); they take it as argument. *)
Definition metadata_keys : list key := [KStr "metadata"; KStr "channelMetadataRenderer"].

Definition channel_name (initial_data : json) : res json :=
  get_path initial_data (metadata_keys ++ [KStr "title"]).

Definition channel_id (initial_data : json) : res json :=
  get_path initial_data (metadata_keys ++ [KStr "externalId"]).

(** The outcome of [d.get(k, None)]: AttributeError when [d] is no dict. *)
Inductive get_outcome : Type :=
| GetValue (v : json)
| GetRaised (e : exc)
| GetAttributeError.

Definition vanity_url (initial_data : json) : get_outcome :=
  match get_path initial_data metadata_keys with
  | Err e => GetRaised e
  | Ok (JObj fs) =>
      match assoc "vanityChannelUrl" fs with
      | Some v => GetValue v
      | None => GetValue JNull
      end
  | Ok _ => GetAttributeError
  end.

(** A sample channel page holding only a metadata record. *)
Definition metadata_page (fields : list (string * json)) : json :=
  obj1 "metadata" (obj1 "channelMetadataRenderer" (JObj fields)).

(* ------------------------------------------------------------------ *)
(** * Lemmas on the location cascade *)

(** Case on every lookup result a goal inspects. *)
Ltac case_lookups :=
  repeat match goal with
         | |- context [get_path ?v ?ks] =>
             let E := fresh "E" in
             destruct (get_path v ks) as [?|[| |]] eqn:E; cbn [bind]
         end.

Lemma locate_videos_found_indep (c1 c2 : Channel) (j : json) :
  fst (locate_videos c1 j) = fst (locate_videos c2 j).
Proof. unfold locate_videos; case_lookups; reflexivity. Qed.

Lemma locate_videos_state_again (c : Channel) (j : json) :
  snd (locate_videos (snd (locate_videos c j)) j) = snd (locate_videos c j).
Proof. unfold locate_videos; case_lookups; reflexivity. Qed.

Lemma locate_videos_no_visitor (c : Channel) (j : json) :
  succeeds (get_path j visitor_data_keys) = false ->
  locate_videos c j =
    (match get_path j legacy_continuation_keys with
     | Ok videos => Some videos
     | Err _ => match get_path j current_continuation_keys with
                | Ok videos => Some videos
                | Err _ => None
                end
     end, c).
Proof.
  intro H; unfold locate_videos.
  destruct (get_path j visitor_data_keys) as [?|[| |]]; [discriminate| | |];
  case_lookups; reflexivity.
Qed.

(* ------------------------------------------------------------------ *)
(** * Claims *)

(** C1: when the payload matches none of the four recognised shapes
    (videos tab, shorts tab, legacy continuation array, current
    continuation object), _extract_videos returns the empty list and no
    continuation token, raises nothing, and leaves the Channel unchanged. *)
Theorem _extract_videos_no_shape (self : Channel) (initial_data : json)
  (Hvideos : succeeds (get_path initial_data (tab_contents_keys 1)) = false)
  (Hshorts : succeeds (get_path initial_data (tab_contents_keys 2)) = false)
  (Hlegacy : succeeds (get_path initial_data legacy_continuation_keys) = false)
  (Hcurrent : succeeds (get_path initial_data current_continuation_keys) = false) :
  _extract_videos self initial_data = (Returned [] None, self).
Proof.
  unfold _extract_videos, locate_videos.
  destruct (get_path initial_data (tab_contents_keys 1)) as [?|[| |]]; try discriminate;
  destruct (get_path initial_data (tab_contents_keys 2)) as [?|[| |]]; try discriminate;
  destruct (get_path initial_data legacy_continuation_keys) as [?|[| |]]; try discriminate;
  destruct (get_path initial_data current_continuation_keys) as [?|[| |]]; try discriminate;
  reflexivity.
Qed.

Lemma _extract_videos_no_shape_witness :
  _extract_videos sample_channel (JObj []) = (Returned [] None, sample_channel).
Proof. apply _extract_videos_no_shape; reflexivity. Defined.

Lemma _extract_videos_by_locate (self : Channel) (initial_data : json) :
  _extract_videos self initial_data =
    (match fst (locate_videos self initial_data) with
     | None => Returned [] None
     | Some videos => process_videos videos
     end, snd (locate_videos self initial_data)).
Proof.
  unfold _extract_videos; destruct (locate_videos self initial_data) as [[v|] c']; reflexivity.
Qed.

(** C2 (as stated, refuted): an initial page whose videos tab holds one
    video but which lacks the visitor data entry.  The located list, once
    processed, gives one watch path, yet _extract_videos returns the empty
    list: the list is discarded. *)
Lemma _extract_videos_no_visitor_data_cex :
  get_path (videos_tab_page_no_visitor [video_item "abcdefghijk"]) (tab_contents_keys 1)
    = Ok (JArr [video_item "abcdefghijk"]) /\
  succeeds (get_path (videos_tab_page_no_visitor [video_item "abcdefghijk"])
                     visitor_data_keys) = false /\
  process_videos (JArr [video_item "abcdefghijk"]) = Returned ["/watch?v=abcdefghijk"] None /\
  _extract_videos sample_channel (videos_tab_page_no_visitor [video_item "abcdefghijk"])
    = (Returned [] None, sample_channel).
Proof. repeat split; reflexivity. Qed.

(** C2 (amended): when the visitor data entry of the payload is absent,
    _extract_videos leaves the Channel (its stored visitor_data included)
    unchanged and ignores what the videos or shorts tab holds: it processes
    the list of the legacy continuation shape, else of the current one, and
    returns the empty list with no token when neither is present. *)
Theorem _extract_videos_no_visitor_data (self : Channel) (initial_data : json)
  (Hvisitor : succeeds (get_path initial_data visitor_data_keys) = false) :
  _extract_videos self initial_data =
    (match get_path initial_data legacy_continuation_keys with
     | Ok videos => process_videos videos
     | Err _ => match get_path initial_data current_continuation_keys with
                | Ok videos => process_videos videos
                | Err _ => Returned [] None
                end
     end, self).
Proof.
  rewrite _extract_videos_by_locate, (locate_videos_no_visitor self initial_data Hvisitor).
  cbn [fst snd].
  destruct (get_path initial_data legacy_continuation_keys); [reflexivity|].
  destruct (get_path initial_data current_continuation_keys); reflexivity.
Qed.

Lemma _extract_videos_no_visitor_data_witness :
  succeeds (get_path (videos_tab_page_no_visitor [video_item "abcdefghijk"])
                     visitor_data_keys) = false /\
  _extract_videos sample_channel (videos_tab_page_no_visitor [video_item "abcdefghijk"])
    = (Returned [] None, sample_channel).
Proof.
  split; [reflexivity|].
  rewrite (_extract_videos_no_visitor_data sample_channel
             (videos_tab_page_no_visitor [video_item "abcdefghijk"])); reflexivity.
Defined.

(** C8: the value _extract_videos returns depends on the payload only, not
    on the Channel's state; calling it a second time, on the state the first
    call left, gives the same value and the same state. *)
Theorem _extract_videos_idempotent (self other : Channel) (initial_data : json) :
  fst (_extract_videos self initial_data) = fst (_extract_videos other initial_data) /\
  _extract_videos (snd (_extract_videos self initial_data)) initial_data
    = _extract_videos self initial_data.
Proof.
  rewrite !_extract_videos_by_locate; cbn [fst snd]; split.
  - rewrite (locate_videos_found_indep self other); reflexivity.
  - rewrite locate_videos_state_again,
      (locate_videos_found_indep (snd (locate_videos self initial_data)) self).
    reflexivity.
Qed.

(** C9: _build_continuation_url always returns the browse endpoint keyed by
    the API key, the fixed client name/version headers, and the POST body
    {continuation: token, context: {client: {clientName: "WEB", visitorData:
    the stored value (None included), clientVersion: the fixed version}}};
    it reads nothing of the Channel but the API key and visitor_data. *)
Theorem _build_continuation_url_request (self : Channel) (continuation : json) :
  _build_continuation_url self continuation
    = continuation_request (yt_api_key self) (_visitor_data self) continuation.
Proof. reflexivity. Qed.

(** C10: when the located video list is empty, _extract_videos returns the
    empty list and no continuation token, raising nothing. *)
Theorem _extract_videos_empty_list (self : Channel) (initial_data : json)
  (Hempty : fst (locate_videos self initial_data) = Some (JArr [])) :
  fst (_extract_videos self initial_data) = Returned [] None.
Proof. rewrite _extract_videos_by_locate, Hempty; reflexivity. Qed.

Lemma _extract_videos_empty_list_witness :
  fst (_extract_videos sample_channel (continuation_page [])) = Returned [] None.
Proof. apply _extract_videos_empty_list; reflexivity. Defined.

(* ------------------------------------------------------------------ *)
(** * Lemmas on the extraction loops *)

Open Scope list_scope.

Lemma append_each_ok (f : json -> res string) (xs : list json) (acc ps : list string) :
  traverse f xs = Ok ps -> append_each f xs acc = ((acc ++ ps)%list, None).
Proof.
  revert acc ps; induction xs as [|x xs IH]; intros acc ps H; cbn in *.
  - inversion H; subst; rewrite app_nil_r; reflexivity.
  - destruct (f x) as [p|e]; [|discriminate]; cbn in H.
    destruct (traverse f xs) as [ps'|e]; [|discriminate]; cbn in H.
    inversion H; subst. rewrite (IH (acc ++ [p]) ps' eq_refl), <- app_assoc; reflexivity.
Qed.

Lemma append_each_err (f : json -> res string) (xs : list json) (acc : list string) (e : exc) :
  traverse f xs = Err e -> exists acc', append_each f xs acc = (acc', Some e).
Proof.
  revert acc; induction xs as [|x xs IH]; intros acc H; cbn in *; [discriminate|].
  destruct (f x) as [p|e']; cbn in H.
  - destruct (traverse f xs) as [ps'|e'']; cbn in H; [discriminate|].
    inversion H; subst; apply IH; reflexivity.
  - inversion H; subst; exists acc; reflexivity.
Qed.


(** Python's [s[-n:]] is a suffix of [s] of length [min n (len s)]. *)
Lemma substring_0_long (n : nat) (s : string) :
  String.length s <= n -> substring 0 n s = s.
Proof.
  revert n; induction s as [|c s IH]; intros n H; destruct n; cbn in *;
    try reflexivity; try lia.
  rewrite IH by lia; reflexivity.
Qed.

Lemma last_chars_suffix (n : nat) (s : string) :
  exists pre, s = (pre ++ last_chars n s)%string /\
              String.length (last_chars n s) = Nat.min n (String.length s).
Proof.
  induction s as [|c s IH].
  - exists EmptyString; unfold last_chars; cbn; destruct n; split; reflexivity.
  - destruct (Nat.le_gt_cases (String.length (String c s)) n) as [Hle|Hgt].
    + unfold last_chars. replace (String.length (String c s) - n) with 0 by lia.
      rewrite substring_0_long by exact Hle.
      exists EmptyString; split; [reflexivity|]; lia.
    + assert (Hl : last_chars n (String c s) = last_chars n s).
      { unfold last_chars; cbn [String.length] in *.
        replace (S (String.length s) - n) with (S (String.length s - n)) by lia.
        reflexivity. }
      rewrite Hl. destruct IH as [pre [Hs Hlen]].
      exists (String c pre); split.
      * cbn; rewrite <- Hs; reflexivity.
      * rewrite Hlen; cbn [String.length] in *; lia.
Qed.

(** The deduplication helper keeps exactly the first occurrences. *)
Lemma uniqueify_seen_keep_first (seen before l : list string) :
  (forall y, In y seen <-> In y before) ->
  uniqueify_seen seen l = keep_first_from before l.
Proof.
  revert seen before; induction l as [|x l IH]; intros seen before Hsb; [reflexivity|].
  cbn. assert (Hx : existsb (String.eqb x) seen = existsb (String.eqb x) before).
  { apply eq_true_iff_eq; rewrite !existsb_exists; split; intros [y [Hy Hxy]];
      apply String.eqb_eq in Hxy; subst y; exists x; rewrite String.eqb_refl;
      split; try reflexivity; apply Hsb; assumption. }
  rewrite Hx. destruct (existsb (String.eqb x) before) eqn:Hb.
  - apply IH. intro y; rewrite Hsb, in_app_iff; cbn.
    apply existsb_exists in Hb; destruct Hb as [z [Hz Hxz]]; apply String.eqb_eq in Hxz; subst z.
    split; [tauto|intros [H|[H|[]]]; [assumption|subst; assumption]].
  - f_equal; apply IH. intro y; rewrite in_app_iff; cbn; rewrite Hsb; tauto.
Qed.

Lemma uniqueify_seen_nodup (seen l : list string) :
  NoDup (uniqueify_seen seen l) /\ (forall y, In y (uniqueify_seen seen l) -> ~ In y seen).
Proof.
  revert seen; induction l as [|x l IH]; intro seen; cbn.
  - split; [constructor|tauto].
  - destruct (existsb (String.eqb x) seen) eqn:Hx; [apply IH|].
    destruct (IH (x :: seen)) as [Hnd Hout]; split.
    + constructor; [|exact Hnd]. intro Hin; apply (Hout x Hin); left; reflexivity.
    + intros y [Hy|Hy].
      * subst y; intro Hin. assert (existsb (String.eqb x) seen = true) as Ht.
        { apply existsb_exists; exists x; rewrite String.eqb_refl; auto. }
        congruence.
      * intro Hin; apply (Hout y Hy); right; exact Hin.
Qed.

Lemma collect_watch_paths_list (xs : list json) :
  collect_watch_paths (JArr xs) =
    let '(videos_url, e1) := append_each video_watch_path xs [] in
    match e1 with
    | None => Ok videos_url
    | Some _ =>
        let '(videos_url', e2) := append_each short_watch_path xs videos_url in
        match e2 with None => Ok videos_url' | Some e => Err e end
    end.
Proof.
  unfold collect_watch_paths, for_append; cbn [py_iter].
  destruct (append_each video_watch_path xs []) as [acc [[| |]|]]; reflexivity.
Qed.

Lemma short_loop_result (xs : list json) (acc : list string) :
  (let '(videos_url', e2) := append_each short_watch_path xs acc in
   match e2 with None => Ok videos_url' | Some e => Err e end)
  = match traverse short_watch_path xs with
    | Ok ps => Ok (acc ++ ps)
    | Err e => Err e
    end.
Proof.
  destruct (traverse short_watch_path xs) as [ps|e] eqn:Ht.
  - rewrite (append_each_ok _ _ acc ps Ht); reflexivity.
  - destruct (append_each_err _ _ acc e Ht) as [acc' ->]; reflexivity.
Qed.

(** C3 (as stated, refuted): the first item has the standard shape, so by
    the claim it would fix the standard shape for the batch; the second item
    has only the short shape.  The extraction switches to the short shape
    for every item, and the result still holds the path the abandoned
    standard attempt produced for the first item. *)
Lemma collect_watch_paths_mixed_cex :
  succeeds (video_watch_path (dual_item "abcdefghijk" "xxABCDEFGHIJK")) = true /\
  collect_watch_paths (JArr [dual_item "abcdefghijk" "xxABCDEFGHIJK";
                             short_item "xxLMNOPQRSTUV"])
    = Ok ["/watch?v=abcdefghijk"; "/watch?v=ABCDEFGHIJK"; "/watch?v=LMNOPQRSTUV"].
Proof. split; reflexivity. Qed.

(** C3 (amended): the renderer shape is chosen for the whole batch, not by
    the first item alone.  If every item has the standard shape, the paths
    are the standard ones.  If some item lacks it, the short-video shape is
    applied to every item from the first one on: the call fails with the
    first failure under that shape, and otherwise the short-shape paths of
    all items, in order, end the extracted sequence.  When the first item
    already lacks the standard shape, the extracted sequence is exactly the
    short-shape paths of all items. *)
Theorem collect_watch_paths_batch (xs : list json) :
  (forall ps, traverse video_watch_path xs = Ok ps -> collect_watch_paths (JArr xs) = Ok ps) /\
  (succeeds (traverse video_watch_path xs) = false ->
     match traverse short_watch_path xs with
     | Ok ps => exists pre, collect_watch_paths (JArr xs) = Ok (pre ++ ps)
     | Err e => collect_watch_paths (JArr xs) = Err e
     end) /\
  (forall x xs', xs = x :: xs' -> succeeds (video_watch_path x) = false ->
     collect_watch_paths (JArr xs) = traverse short_watch_path xs).
Proof.
  rewrite collect_watch_paths_list; split; [|split].
  - intros ps Hps; rewrite (append_each_ok _ _ [] ps Hps); reflexivity.
  - intro Hstd. destruct (traverse video_watch_path xs) as [?|e1] eqn:Ht; [discriminate|].
    destruct (append_each_err _ _ [] e1 Ht) as [acc1 ->].
    rewrite short_loop_result.
    destruct (traverse short_watch_path xs); [eexists; reflexivity|reflexivity].
  - intros x xs' -> Hx.
    destruct (video_watch_path x) as [?|e1] eqn:Hv; [discriminate|].
    assert (append_each video_watch_path (x :: xs') [] = ([], Some e1)) as ->
      by (cbn; rewrite Hv; reflexivity).
    rewrite short_loop_result.
    destruct (traverse short_watch_path (x :: xs')); reflexivity.
Qed.

Lemma collect_watch_paths_batch_witness :
  collect_watch_paths (JArr [video_item "abcdefghijk"]) = Ok ["/watch?v=abcdefghijk"] /\
  (exists pre, collect_watch_paths (JArr [dual_item "abcdefghijk" "xxABCDEFGHIJK";
                                          short_item "xxLMNOPQRSTUV"])
               = Ok (pre ++ ["/watch?v=ABCDEFGHIJK"; "/watch?v=LMNOPQRSTUV"])) /\
  collect_watch_paths (JArr [short_item "xxABCDEFGHIJK"]) = Ok ["/watch?v=ABCDEFGHIJK"].
Proof.
  destruct (collect_watch_paths_batch [video_item "abcdefghijk"]) as [H1 _].
  destruct (collect_watch_paths_batch [dual_item "abcdefghijk" "xxABCDEFGHIJK";
                                       short_item "xxLMNOPQRSTUV"]) as [_ [H2 _]].
  destruct (collect_watch_paths_batch [short_item "xxABCDEFGHIJK"]) as [_ [_ H3]].
  split; [apply H1; reflexivity|split].
  - apply H2; reflexivity.
  - rewrite (H3 _ _ eq_refl eq_refl); reflexivity.
Defined.




(** C5 (code defect): the last item is a standard video whose
    [continuationItemRenderer] is None, so it is no continuation marker.
    Both items give watch paths, yet _extract_videos raises TypeError from
    the marker inspection, whose except clause lists only KeyError and
    IndexError. *)
Lemma _extract_videos_marker_type_error :
  collect_watch_paths (JArr [video_item "aaaaaaaaaaa"; null_marker_video_item "bbbbbbbbbbb"])
    = Ok ["/watch?v=aaaaaaaaaaa"; "/watch?v=bbbbbbbbbbb"] /\
  fst (_extract_videos sample_channel
         (continuation_page [video_item "aaaaaaaaaaa"; null_marker_video_item "bbbbbbbbbbb"]))
    = Raised AtContinuationMarker TypeError.
Proof. split; reflexivity. Qed.

(** C6: the list _extract_videos returns has no duplicates and is the
    extracted sequence of watch paths (empty when no shape matched) with
    every occurrence after the first removed, in order. *)
Theorem _extract_videos_dedup (self : Channel) (initial_data : json)
  (ids : list string) (tok : option json)
  (Hret : fst (_extract_videos self initial_data) = Returned ids tok) :
  NoDup ids /\
  exists raw, ids = first_occurrences raw /\
    ((fst (locate_videos self initial_data) = None /\ raw = []) \/
     exists videos videos', fst (locate_videos self initial_data) = Some videos /\
       split_continuation videos = Ok (videos', tok) /\ collect_watch_paths videos' = Ok raw).
Proof.
  rewrite _extract_videos_by_locate in Hret; cbn [fst] in Hret.
  destruct (fst (locate_videos self initial_data)) as [videos|] eqn:Hloc.
  - unfold process_videos in Hret.
    destruct (split_continuation videos) as [[videos' tok']|e] eqn:Hs; [|discriminate].
    destruct (collect_watch_paths videos') as [raw|e] eqn:Hc; [|discriminate].
    inversion Hret; subst. split; [apply uniqueify_seen_nodup|].
    exists raw; split.
    + apply uniqueify_seen_keep_first; reflexivity.
    + right; exists videos, videos'; auto.
  - inversion Hret; subst. split; [constructor|].
    exists []; split; [reflexivity|left; auto].
Qed.

Lemma _extract_videos_dedup_witness :
  fst (_extract_videos sample_channel
         (continuation_page [video_item "aaaaaaaaaaa"; video_item "bbbbbbbbbbb";
                             video_item "aaaaaaaaaaa"; marker_item "TOKEN"]))
    = Returned ["/watch?v=aaaaaaaaaaa"; "/watch?v=bbbbbbbbbbb"] (Some (JStr "TOKEN")) /\
  NoDup ["/watch?v=aaaaaaaaaaa"; "/watch?v=bbbbbbbbbbb"].
Proof.
  split; [reflexivity|].
  apply (_extract_videos_dedup sample_channel
           (continuation_page [video_item "aaaaaaaaaaa"; video_item "bbbbbbbbbbb";
                               video_item "aaaaaaaaaaa"; marker_item "TOKEN"])
           _ (Some (JStr "TOKEN"))).
  reflexivity.
Defined.

(** C7: under the short-video shape an item's watch path is "/watch?v="
    followed by the last 11 characters of its entity id (Python's
    [[-11:]]: a suffix of length min 11 and the id's length); under the
    standard shape it is "/watch?v=" followed by the video id verbatim. *)
Theorem watch_path_shapes :
  (forall x entity_id, get_path x entity_id_keys = Ok (JStr entity_id) ->
     short_watch_path x = Ok (watch_prefix ++ last_chars 11 entity_id)%string /\
     (exists pre, entity_id = (pre ++ last_chars 11 entity_id)%string) /\
     String.length (last_chars 11 entity_id) = Nat.min 11 (String.length entity_id)) /\
  (forall x video_id, get_path x video_id_keys = Ok (JStr video_id) ->
     video_watch_path x = Ok (watch_prefix ++ video_id)%string).
Proof.
  split.
  - intros x entity_id H. unfold short_watch_path; rewrite H; cbn.
    destruct (last_chars_suffix 11 entity_id) as [pre [Hs Hl]].
    split; [reflexivity|split; [exists pre; exact Hs|exact Hl]].
  - intros x video_id H. unfold video_watch_path; rewrite H; reflexivity.
Qed.

Lemma watch_path_shapes_witness :
  short_watch_path (short_item "xxABCDEFGHIJK") = Ok "/watch?v=ABCDEFGHIJK" /\
  video_watch_path (video_item "abcdefghijk") = Ok "/watch?v=abcdefghijk".
Proof.
  destruct watch_path_shapes as [Hs Hv]; split.
  - apply (Hs (short_item "xxABCDEFGHIJK") "xxABCDEFGHIJK"); reflexivity.
  - apply (Hv (video_item "abcdefghijk") "abcdefghijk"); reflexivity.
Defined.

(* ------------------------------------------------------------------ *)
(** * Further properties of the Channel code *)

(** Page caches: a fetched non-empty body is served from the cache; the
    first access requests the page's URL exactly once. *)
Theorem get_page_cached (self : ChannelPages) (p : page) (r1 r2 : string)
  (Huncached : py_truthy (page_slot self p) = false) (Hne : r1 <> "") :
  let '(b1, s1) := get_page self p r1 in
  let '(b2, s2) := get_page s1 p r2 in
  b1 = r1 /\ b2 = r1 /\ s2 = s1 /\ requests s2 = requests self ++ [page_url self p].
Proof.
  assert (Hfirst : get_page self p r1 = (r1, store_page self p (page_url self p) r1)).
  { unfold get_page; destruct (page_slot self p) as [b|]; [|reflexivity].
    rewrite Huncached; reflexivity. }
  rewrite Hfirst.
  assert (Hslot : page_slot (store_page self p (page_url self p) r1) p = Some r1)
    by (destruct p; reflexivity).
  assert (Htr : py_truthy (Some r1) = true).
  { cbn; destruct (String.eqb r1 "") eqn:E; [apply String.eqb_eq in E; contradiction|reflexivity]. }
  unfold get_page at 1; rewrite Hslot, Htr.
  repeat split; reflexivity.
Qed.

Lemma get_page_cached_witness :
  let self := channel_pages_init "/@sample" "KEY" in
  py_truthy (page_slot self PAbout) = false /\ "<html>" <> "" /\
  (let '(b1, s1) := get_page self PAbout "<html>" in
   let '(b2, s2) := get_page s1 PAbout "other" in
   b1 = "<html>" /\ b2 = "<html>" /\ s2 = s1 /\
   requests s2 = requests self ++ [page_url self PAbout]).
Proof.
  cbv zeta; split; [reflexivity|split; [discriminate|]].
  apply get_page_cached; [reflexivity|discriminate].
Defined.

(** An empty body is not cached (it is falsy): the next access requests
    the page again. *)
Theorem get_page_empty_refetch (self : ChannelPages) (p : page) (r2 : string)
  (Huncached : py_truthy (page_slot self p) = false) :
  let '(b1, s1) := get_page self p "" in
  let '(b2, s2) := get_page s1 p r2 in
  b1 = "" /\ b2 = r2 /\ requests s2 = requests self ++ [page_url self p; page_url self p].
Proof.
  assert (Hfirst : get_page self p "" = ("", store_page self p (page_url self p) "")).
  { unfold get_page; destruct (page_slot self p) as [b|]; [|reflexivity].
    rewrite Huncached; reflexivity. }
  rewrite Hfirst.
  assert (Hslot : page_slot (store_page self p (page_url self p) "") p = Some "")
    by (destruct p; reflexivity).
  assert (Hurl : page_url (store_page self p (page_url self p) "") p = page_url self p)
    by (destruct p; reflexivity).
  unfold get_page at 1; rewrite Hslot; cbn [py_truthy String.eqb negb].
  rewrite Hurl; repeat split; cbn [requests store_page]; rewrite <- app_assoc; reflexivity.
Qed.

Lemma get_page_empty_refetch_witness :
  let self := channel_pages_init "/@sample" "KEY" in
  py_truthy (page_slot self PPlaylists) = false /\
  (let '(b1, s1) := get_page self PPlaylists "" in
   let '(b2, s2) := get_page s1 PPlaylists "body" in
   b1 = "" /\ b2 = "body" /\
   requests s2 = requests self ++ [page_url self PPlaylists; page_url self PPlaylists]).
Proof.
  cbv zeta; split; [reflexivity|]. apply get_page_empty_refetch; reflexivity.
Defined.

(** Accessing a page property changes no URL (its own page's included),
    no field of the Channel proper, and no other page's cache slot. *)
Theorem get_page_other_pages (self : ChannelPages) (p : page) (r : string) :
  (forall q, page_url (snd (get_page self p r)) q = page_url self q) /\
  core (snd (get_page self p r)) = core self /\
  (forall q, p <> q -> page_slot (snd (get_page self p r)) q = page_slot self q).
Proof.
  unfold get_page.
  destruct (page_slot self p) as [b|]; cbn [py_truthy];
    [destruct (String.eqb b "")|]; cbn [negb snd];
    (split; [intro q; destruct p, q; reflexivity|split; [destruct p; reflexivity|]]);
    intros q Hpq; destruct p, q; try contradiction; reflexivity.
Qed.

Lemma get_page_other_pages_witness :
  let self := channel_pages_init "/@sample" "KEY" in
  page_url (snd (get_page self PAbout "body")) PAbout = page_url self PAbout /\
  core (snd (get_page self PAbout "body")) = core self /\
  page_slot (snd (get_page self PAbout "body")) PChannel = page_slot self PChannel.
Proof.
  cbv zeta.
  destruct (get_page_other_pages (channel_pages_init "/@sample" "KEY") PAbout "body")
    as [Hu [Hc Hs]].
  split; [apply Hu|split; [exact Hc|apply Hs; discriminate]].
Defined.

(** Once [html] holds a non-empty body, selecting the shorts tab does not
    change it: [html] still returns the cached videos page and makes no
    request. *)
Theorem shorts_after_html_cached (self : ChannelPages) (r1 r2 : string)
  (Huncached : py_truthy (_html self) = false) (Hne : r1 <> "") :
  let '(b1, s1) := get_page (videos self) PChannel r1 in
  b1 = r1 /\ requests s1 = requests self ++ [videos_url (core self)] /\
  get_page (shorts s1) PChannel r2 = (r1, shorts s1).
Proof.
  assert (Hfirst : get_page (videos self) PChannel r1
                   = (r1, store_page (videos self) PChannel (videos_url (core self)) r1)).
  { unfold get_page; cbn [page_slot videos select_page _html].
    destruct (_html self) as [b|]; [|reflexivity].
    rewrite Huncached; reflexivity. }
  rewrite Hfirst; split; [reflexivity|split; [reflexivity|]].
  unfold get_page; cbn [page_slot shorts select_page store_page _html].
  cbn [py_truthy]; destruct (String.eqb r1 "") eqn:E;
    [apply String.eqb_eq in E; contradiction|reflexivity].
Qed.

Lemma shorts_after_html_cached_witness :
  let self := channel_pages_init "/@sample" "KEY" in
  py_truthy (_html self) = false /\ "videos page" <> "" /\
  (let '(b1, s1) := get_page (videos self) PChannel "videos page" in
   b1 = "videos page" /\ requests s1 = requests self ++ [videos_url (core self)] /\
   get_page (shorts s1) PChannel "shorts page" = ("videos page", shorts s1)).
Proof.
  cbv zeta; split; [reflexivity|split; [discriminate|]].
  apply shorts_after_html_cached; [reflexivity|discriminate].
Defined.

Lemma string_app_assoc (a b c : string) :
  ((a ++ b) ++ c)%string = (a ++ (b ++ c))%string.
Proof. induction a as [|x a IH]; cbn; [reflexivity|rewrite IH; reflexivity]. Qed.

Lemma string_app_cancel_l (a b c : string) :
  (a ++ b)%string = (a ++ c)%string -> b = c.
Proof. induction a as [|x a IH]; cbn; [auto|intro H; inversion H; auto]. Qed.

(** On a fresh Channel the first [html] access requests the /videos page,
    or the /shorts page when [shorts] was selected first. *)
Theorem fresh_channel_html_request (channel_uri yt_api_key r : string) :
  requests (snd (get_page (channel_pages_init channel_uri yt_api_key) PChannel r))
    = [("https://www.youtube.com" ++ channel_uri ++ "/videos")%string] /\
  requests (snd (get_page (shorts (channel_pages_init channel_uri yt_api_key)) PChannel r))
    = [("https://www.youtube.com" ++ channel_uri ++ "/shorts")%string].
Proof.
  split; cbn -[String.append]; rewrite ?string_app_assoc; reflexivity.
Qed.

(** [__init__]: the six sub-page URLs are the channel URL followed by
    their suffix, pairwise distinct; the channel page starts on /videos and
    no visitor data is stored. *)
Theorem channel_pages_init_urls (channel_uri yt_api_key : string) :
  let self := channel_pages_init channel_uri yt_api_key in
  let urls := [videos_url (core self); shorts_url (core self); playlists_url self;
               community_url self; featured_channels_url self; about_url self] in
  urls = map (fun suffix => ("https://www.youtube.com" ++ channel_uri ++ suffix)%string)
             ["/videos"; "/shorts"; "/playlists"; "/community"; "/channels"; "/about"] /\
  NoDup urls /\
  _html_page (core self) = videos_url (core self) /\ _visitor_data (core self) = JNull.
Proof.
  cbv zeta.
  assert (Hurls : [videos_url (core (channel_pages_init channel_uri yt_api_key));
                   shorts_url (core (channel_pages_init channel_uri yt_api_key));
                   playlists_url (channel_pages_init channel_uri yt_api_key);
                   community_url (channel_pages_init channel_uri yt_api_key);
                   featured_channels_url (channel_pages_init channel_uri yt_api_key);
                   about_url (channel_pages_init channel_uri yt_api_key)]
          = map (fun suffix => ("https://www.youtube.com" ++ channel_uri ++ suffix)%string)
                ["/videos"; "/shorts"; "/playlists"; "/community"; "/channels"; "/about"]).
  { cbn -[String.append]; rewrite !string_app_assoc; reflexivity. }
  rewrite Hurls; split; [reflexivity|split; [|split; reflexivity]].
  apply NoDup_map_NoDup_ForallPairs.
  - intros a b _ _ H; do 2 apply string_app_cancel_l in H; exact H.
  - repeat constructor; cbn; intuition discriminate.
Qed.

Lemma set_visitor_data_same (self : Channel) : set_visitor_data self (_visitor_data self) = self.
Proof. destruct self; reflexivity. Qed.

(** After _extract_videos the Channel differs at most in its visitor data:
    the payload's visitorData when the videos or shorts tab and the visitor
    data entry are both present, the earlier value otherwise; the next
    continuation request carries that value. *)
Theorem continuation_after_extract (self : Channel) (initial_data token : json) :
  let visitor :=
    match get_path initial_data visitor_data_keys with
    | Ok d => if succeeds (get_path initial_data (tab_contents_keys 1))
                 || succeeds (get_path initial_data (tab_contents_keys 2))
              then d else _visitor_data self
    | Err _ => _visitor_data self
    end in
  snd (_extract_videos self initial_data) = set_visitor_data self visitor /\
  _build_continuation_url (snd (_extract_videos self initial_data)) token
    = continuation_request (yt_api_key self) visitor token.
Proof.
  cbv zeta.
  assert (H : snd (_extract_videos self initial_data) = set_visitor_data self
    (match get_path initial_data visitor_data_keys with
     | Ok d => if succeeds (get_path initial_data (tab_contents_keys 1))
                  || succeeds (get_path initial_data (tab_contents_keys 2))
               then d else _visitor_data self
     | Err _ => _visitor_data self
     end)).
  { rewrite _extract_videos_by_locate; cbn [snd]; unfold locate_videos.
    case_lookups; cbn [succeeds orb]; rewrite ?set_visitor_data_same; reflexivity. }
  split; [exact H|]. rewrite H; reflexivity.
Qed.

Lemma getitem_last (items : list json) (last : json) :
  getitem (JArr (items ++ [last])) (KInt (-1)) = Ok last.
Proof.
  unfold getitem.
  assert (Hi : py_index (length (items ++ [last])) (-1) = Some (length items)).
  { unfold py_index; rewrite length_app; cbn [length].
    replace (-1 + Z.of_nat (length items + 1))%Z with (Z.of_nat (length items)) by lia.
    cbn [Z.ltb Z.compare].
    rewrite (proj2 (Z.leb_le _ _)) by lia.
    rewrite (proj2 (Z.ltb_lt _ _)) by lia.
    rewrite Nat2Z.id; reflexivity. }
  rewrite Hi, nth_error_app2, Nat.sub_diag by lia; reflexivity.
Qed.

(** When the last item of the list has the continuation-marker shape, the
    token is its token and the watch paths come from the other items. *)
Theorem process_videos_marker (items : list json) (last token : json)
  (Htoken : get_path last token_keys = Ok token) :
  process_videos (JArr (items ++ [last])) =
    match collect_watch_paths (JArr items) with
    | Ok raw => Returned (uniqueify raw) (Some token)
    | Err e => Raised AtShortsLoop e
    end.
Proof.
  unfold process_videos, split_continuation; cbn [get_path].
  rewrite getitem_last; cbn [bind]; rewrite Htoken; cbn [bind slice_drop_last].
  rewrite removelast_last; reflexivity.
Qed.

Lemma process_videos_marker_witness :
  process_videos (JArr ([video_item "aaaaaaaaaaa"] ++ [marker_item "TOKEN"]))
    = Returned ["/watch?v=aaaaaaaaaaa"] (Some (JStr "TOKEN")).
Proof. rewrite (process_videos_marker _ _ (JStr "TOKEN")); reflexivity. Defined.

(** When the marker lookup on the last item fails with KeyError or
    IndexError, there is no token and every item is processed. *)
Theorem process_videos_no_marker (items : list json) (last : json) (e : exc)
  (Hlookup : get_path last token_keys = Err e) (He : e = KeyError \/ e = IndexError) :
  process_videos (JArr (items ++ [last])) =
    match collect_watch_paths (JArr (items ++ [last])) with
    | Ok raw => Returned (uniqueify raw) None
    | Err e' => Raised AtShortsLoop e'
    end.
Proof.
  unfold process_videos, split_continuation; cbn [get_path].
  rewrite getitem_last; cbn [bind]; rewrite Hlookup.
  destruct He as [-> | ->]; reflexivity.
Qed.

Lemma process_videos_no_marker_witness :
  process_videos (JArr ([video_item "aaaaaaaaaaa"] ++ [video_item "bbbbbbbbbbb"]))
    = Returned ["/watch?v=aaaaaaaaaaa"; "/watch?v=bbbbbbbbbbb"] None.
Proof.
  rewrite (process_videos_no_marker _ _ KeyError); [reflexivity|reflexivity|left; reflexivity].
Defined.

Definition is_watch_path (p : string) : Prop := exists id, p = (watch_prefix ++ id)%string.

Lemma append_each_watch (f : json -> res string) (xs : list json) (acc : list string) :
  (forall x p, f x = Ok p -> is_watch_path p) -> Forall is_watch_path acc ->
  Forall is_watch_path (fst (append_each f xs acc)).
Proof.
  intros Hf; revert acc; induction xs as [|x xs IH]; intros acc Hacc; cbn; [exact Hacc|].
  destruct (f x) as [p|e] eqn:Hx; [|exact Hacc].
  apply IH, Forall_app; split; [exact Hacc|constructor; [eapply Hf; exact Hx|constructor]].
Qed.

Lemma video_watch_path_watch (x : json) (p : string) : video_watch_path x = Ok p -> is_watch_path p.
Proof.
  unfold video_watch_path; destruct (get_path x video_id_keys); cbn; intro H; inversion H.
  eexists; reflexivity.
Qed.

Lemma short_watch_path_watch (x : json) (p : string) : short_watch_path x = Ok p -> is_watch_path p.
Proof.
  unfold short_watch_path; destruct (get_path x entity_id_keys); cbn; [|discriminate].
  destruct (slice_last 11 a); cbn; intro H; inversion H; eexists; reflexivity.
Qed.

Lemma collect_watch_paths_watch (videos : json) (raw : list string) :
  collect_watch_paths videos = Ok raw -> Forall is_watch_path raw.
Proof.
  unfold collect_watch_paths, for_append.
  assert (H1 := fun xs => append_each_watch video_watch_path xs [] video_watch_path_watch (Forall_nil _)).
  destruct (py_iter videos) as [xs|e].
  - specialize (H1 xs). destruct (append_each video_watch_path xs []) as [acc [e1|]]; cbn in H1.
    + destruct e1;
      (pose proof (append_each_watch short_watch_path xs acc short_watch_path_watch H1) as H2;
       destruct (append_each short_watch_path xs acc) as [acc' [e2|]]; cbn in H2;
       intro H; inversion H; subst; exact H2).
    + intro H; inversion H; subst; exact H1.
  - destruct e; cbn; intro H; inversion H.
Qed.

Lemma uniqueify_seen_incl (seen l : list string) (y : string) :
  In y (uniqueify_seen seen l) -> In y l.
Proof.
  revert seen; induction l as [|x l IH]; intros seen; cbn; [tauto|].
  destruct (existsb (String.eqb x) seen); [intro H; right; eapply IH; exact H|].
  intros [H|H]; [left; exact H|right; eapply IH; exact H].
Qed.

(** Every watch path _extract_videos returns starts with "/watch?v=". *)
Theorem _extract_videos_watch_prefix (self : Channel) (initial_data : json)
  (ids : list string) (token : option json)
  (Hret : fst (_extract_videos self initial_data) = Returned ids token) :
  Forall is_watch_path ids.
Proof.
  rewrite _extract_videos_by_locate in Hret; cbn [fst] in Hret.
  destruct (fst (locate_videos self initial_data)) as [videos|].
  - unfold process_videos in Hret.
    destruct (split_continuation videos) as [[videos' t]|e]; [|discriminate].
    destruct (collect_watch_paths videos') as [raw|e] eqn:Hc; [|discriminate].
    inversion Hret; subst. apply collect_watch_paths_watch in Hc.
    apply Forall_forall; intros y Hy; apply uniqueify_seen_incl in Hy.
    rewrite Forall_forall in Hc; exact (Hc y Hy).
  - inversion Hret; subst; constructor.
Qed.

Lemma _extract_videos_watch_prefix_witness :
  Forall is_watch_path ["/watch?v=aaaaaaaaaaa"; "/watch?v=bbbbbbbbbbb"].
Proof.
  apply (_extract_videos_watch_prefix sample_channel
           (continuation_page [video_item "aaaaaaaaaaa"; video_item "bbbbbbbbbbb";
                               marker_item "TOKEN"]) _ (Some (JStr "TOKEN"))).
  reflexivity.
Defined.

(** With the visitor data entry present, the candidates are tried in the
    order videos tab, shorts tab, legacy continuation array, current
    continuation object; the first present one is processed, and the visitor
    data is stored exactly when a tab matched. *)
Theorem _extract_videos_initial_page (self : Channel) (initial_data d : json)
  (Hd : get_path initial_data visitor_data_keys = Ok d) :
  _extract_videos self initial_data =
    match get_path initial_data (tab_contents_keys 1) with
    | Ok videos => (process_videos videos, set_visitor_data self d)
    | Err _ =>
        match get_path initial_data (tab_contents_keys 2) with
        | Ok videos => (process_videos videos, set_visitor_data self d)
        | Err _ =>
            (match get_path initial_data legacy_continuation_keys with
             | Ok videos => process_videos videos
             | Err _ =>
                 match get_path initial_data current_continuation_keys with
                 | Ok videos => process_videos videos
                 | Err _ => Returned [] None
                 end
             end, self)
        end
    end.
Proof.
  unfold _extract_videos, locate_videos.
  destruct (get_path initial_data (tab_contents_keys 1)) as [?|[| |]]; cbn [bind];
    rewrite ?Hd; cbn [bind]; try reflexivity;
    destruct (get_path initial_data (tab_contents_keys 2)) as [?|[| |]]; cbn [bind];
    rewrite ?Hd; cbn [bind]; try reflexivity;
    destruct (get_path initial_data legacy_continuation_keys) as [?|[| |]]; try reflexivity;
    destruct (get_path initial_data current_continuation_keys) as [?|[| |]]; reflexivity.
Qed.

Lemma _extract_videos_initial_page_witness :
  fst (_extract_videos sample_channel
         (JObj [("contents", obj1 "twoColumnBrowseResultsRenderer" (obj1 "tabs"
                   (JArr [JObj []; JObj []; obj1 "tabRenderer" (obj1 "content"
                     (obj1 "richGridRenderer" (obj1 "contents"
                        (JArr [short_item "xxABCDEFGHIJK"]))))])));
                ("responseContext", obj1 "webResponseContextExtensionData"
                   (obj1 "ytConfigData" (obj1 "visitorData" (JStr "VD"))))]))
    = Returned ["/watch?v=ABCDEFGHIJK"] None.
Proof. rewrite (_extract_videos_initial_page _ _ (JStr "VD")); reflexivity. Defined.

Lemma string_get_in_range (n : nat) (s : string) :
  n < String.length s -> exists c, String.get n s = Some c.
Proof.
  revert n; induction s as [|c s IH]; intros n H; cbn in H; [lia|].
  destruct n; cbn; [exists c; reflexivity|apply IH; lia].
Qed.

Lemma getitem_str_last (c : ascii) (s : string) :
  exists c', getitem (JStr (String c s)) (KInt (-1)) = Ok (JStr (String c' EmptyString)).
Proof.
  unfold getitem.
  assert (Hi : py_index (String.length (String c s)) (-1) = Some (String.length s)).
  { unfold py_index; cbn [String.length].
    replace (-1 + Z.of_nat (S (String.length s)))%Z with (Z.of_nat (String.length s)) by lia.
    cbn [Z.ltb Z.compare].
    rewrite (proj2 (Z.leb_le _ _)) by lia.
    rewrite (proj2 (Z.ltb_lt _ _)) by lia.
    rewrite Nat2Z.id; reflexivity. }
  rewrite Hi.
  destruct (string_get_in_range (String.length s) (String c s)) as [c' Hc'];
    [cbn; lia|].
  rewrite Hc'; exists c'; reflexivity.
Qed.

(** A located node that is no list: a dict gives no token (its [-1] is a
    KeyError) and iterates over its keys, so it yields the empty result
    when empty and a TypeError from the short-video loop otherwise; None, a
    bool, a number or a non-empty str raise TypeError at the marker
    inspection; the empty str yields the empty result. *)
Theorem process_videos_non_list (fs : list (string * json)) (s r : string) (b : bool) :
  process_videos (JObj fs)
    = match fs with [] => Returned [] None | _ :: _ => Raised AtShortsLoop TypeError end /\
  process_videos JNull = Raised AtContinuationMarker TypeError /\
  process_videos (JBool b) = Raised AtContinuationMarker TypeError /\
  process_videos (JNum r) = Raised AtContinuationMarker TypeError /\
  process_videos (JStr s)
    = match s with EmptyString => Returned [] None | _ => Raised AtContinuationMarker TypeError end.
Proof.
  split; [destruct fs as [|[k v] fs]; reflexivity|].
  split; [reflexivity|split; [reflexivity|split; [reflexivity|]]].
  destruct s as [|c s]; [reflexivity|].
  unfold process_videos, split_continuation; cbn [get_path].
  destruct (getitem_str_last c s) as [c' ->]; reflexivity.
Qed.

Lemma get_path_app (v : json) (ks1 ks2 : list key) :
  get_path v (ks1 ++ ks2) = bind (get_path v ks1) (fun w => get_path w ks2).
Proof.
  revert v; induction ks1 as [|k ks1 IH]; intro v; cbn; [reflexivity|].
  destruct (getitem v k); cbn; [apply IH|reflexivity].
Qed.

(** channel_name, channel_id and vanity_url read the same metadata record:
    when it is missing all three raise the same exception; when it is no
    dict, channel_name and channel_id raise TypeError and vanity_url an
    AttributeError; when it is a dict, channel_name and channel_id raise
    KeyError on a missing key while vanity_url returns None. *)
Theorem metadata_properties (initial_data : json) :
  match get_path initial_data metadata_keys with
  | Ok (JObj fs) =>
      channel_name initial_data
        = match assoc "title" fs with Some v => Ok v | None => Err KeyError end /\
      channel_id initial_data
        = match assoc "externalId" fs with Some v => Ok v | None => Err KeyError end /\
      vanity_url initial_data
        = GetValue match assoc "vanityChannelUrl" fs with Some v => v | None => JNull end
  | Ok _ =>
      channel_name initial_data = Err TypeError /\ channel_id initial_data = Err TypeError /\
      vanity_url initial_data = GetAttributeError
  | Err e =>
      channel_name initial_data = Err e /\ channel_id initial_data = Err e /\
      vanity_url initial_data = GetRaised e
  end.
Proof.
  unfold channel_name, channel_id, vanity_url; rewrite !get_path_app.
  destruct (get_path initial_data metadata_keys) as [[| | | | |fs]|e]; cbn;
    try (repeat split; reflexivity).
  destruct (assoc "title" fs), (assoc "externalId" fs), (assoc "vanityChannelUrl" fs);
    repeat split; reflexivity.
Qed.
